(** * Alerting abilities and the public-dashboard update payload

    A shallow embedding of
    - [public/app/features/alerting/unified/hooks/useAbilities.ts]
    - [ConfigPublicDashboard.tsx] (the [onPublicDashboardUpdate] handler)

    Objects that the TypeScript code uses as string-keyed tables
    ([Abilities<T>], the [PublicDashboard] payload) are finite maps from
    strings; a hook is a function of the collaborators it reads. *)

From stdpp Require Import base option list strings gmap fin_maps.

Open Scope string_scope.

(** ** Enumerations of [useAbilities.ts] with their string values *)

Inductive AlertmanagerAction :=
  | ViewExternalConfiguration
  | UpdateExternalConfiguration
  | CreateContactPoint
  | ViewContactPoint
  | UpdateContactPoint
  | DeleteContactPoint
  | ExportContactPoint
  | CreateNotificationTemplate
  | ViewNotificationTemplate
  | UpdateNotificationTemplate
  | DeleteNotificationTemplate
  | DecryptSecrets
  | CreateNotificationPolicy
  | ViewNotificationPolicyTree
  | UpdateNotificationPolicyTree
  | DeleteNotificationPolicy
  | ExportNotificationPolicies
  | CreateSilence
  | ViewSilence
  | UpdateSilence
  | ViewMuteTiming
  | CreateMuteTiming
  | UpdateMuteTiming
  | DeleteMuteTiming.

Definition AlertmanagerAction_value (a : AlertmanagerAction) : string :=
  match a with
  | ViewExternalConfiguration => "view-external-configuration"
  | UpdateExternalConfiguration => "update-external-configuration"
  | CreateContactPoint => "create-contact-point"
  | ViewContactPoint => "view-contact-point"
  | UpdateContactPoint => "edit-contact-points"
  | DeleteContactPoint => "delete-contact-point"
  | ExportContactPoint => "export-contact-point"
  | CreateNotificationTemplate => "create-notification-template"
  | ViewNotificationTemplate => "view-notification-template"
  | UpdateNotificationTemplate => "edit-notification-template"
  | DeleteNotificationTemplate => "delete-notification-template"
  | DecryptSecrets => "decrypt-secrets"
  | CreateNotificationPolicy => "create-notification-policy"
  | ViewNotificationPolicyTree => "view-notification-policy-tree"
  | UpdateNotificationPolicyTree => "update-notification-policy-tree"
  | DeleteNotificationPolicy => "delete-notification-policy"
  | ExportNotificationPolicies => "export-notification-policies"
  | CreateSilence => "create-silence"
  | ViewSilence => "view-silence"
  | UpdateSilence => "update-silence"
  | ViewMuteTiming => "view-mute-timing"
  | CreateMuteTiming => "create-mute-timing"
  | UpdateMuteTiming => "update-mute-timing"
  | DeleteMuteTiming => "delete-mute-timing"
  end.

Inductive AlertRuleAction :=
  | Duplicate
  | View
  | Update
  | Delete
  | Explore
  | Silence
  | ModifyExport.

Definition AlertRuleAction_value (a : AlertRuleAction) : string :=
  match a with
  | Duplicate => "duplicate-alert-rule"
  | View => "view-alert-rule"
  | Update => "update-alert-rule"
  | Delete => "delete-alert-rule"
  | Explore => "explore-alert-rule"
  | Silence => "silence-alert-rule"
  | ModifyExport => "modify-export-rule"
  end.

Inductive AlertingAction :=
  | CreateAlertRule
  | ViewAlertRule
  | UpdateAlertRule
  | DeleteAlertRule
  | ExportGrafanaManagedRules
  | CreateExternalAlertRule
  | ViewExternalAlertRule
  | UpdateExternalAlertRule
  | DeleteExternalAlertRule.

Definition AlertingAction_value (a : AlertingAction) : string :=
  match a with
  | CreateAlertRule => "create-alert-rule"
  | ViewAlertRule => "view-alert-rule"
  | UpdateAlertRule => "update-alert-rule"
  | DeleteAlertRule => "delete-alert-rule"
  | ExportGrafanaManagedRules => "export-grafana-managed-rules"
  | CreateExternalAlertRule => "create-external-alert-rule"
  | ViewExternalAlertRule => "view-external-alert-rule"
  | UpdateExternalAlertRule => "update-external-alert-rule"
  | DeleteExternalAlertRule => "delete-external-alert-rule"
  end.

Definition AlwaysSupported : bool := true.
Definition NotSupported : bool := false.

(** [Ability = [actionSupported: boolean, actionAllowed: boolean]] *)
Definition Ability : Type := bool * bool.

Definition actionSupported (a : Ability) : bool := fst a.
Definition actionAllowed (a : Ability) : bool := snd a.

(** ** Declarations imported by [useAbilities.ts] *)

(** Modelled from the spec: the enum [AccessControlAction] of [app/types]
    is not part of the sources. The members that [useAbilities.ts] names
    are constructors; every other member of the enum (those handed back by
    the permission tables of [utils/access-control]) is carried by
    [OtherAccessControlAction] with its permission identifier. *)
Inductive AccessControlAction :=
  | AlertingRuleCreate
  | AlertingRuleRead
  | AlertingRuleUpdate
  | AlertingRuleDelete
  | AlertingRuleExternalWrite
  | AlertingRuleExternalRead
  | AlertingNotificationsExternalRead
  | AlertingNotificationsExternalWrite
  | AlertingInstanceCreate
  | DataSourcesExplore
  | OtherAccessControlAction (id : string).

(** Modelled from the spec: [AlertmanagerChoice] of the alertmanager
    plugin types is not part of the sources; the routing choice is one of
    All, Internal, External. *)
Inductive AlertmanagerChoice :=
  | Internal
  | All
  | External.

Definition AlertmanagerChoice_eqb (a b : AlertmanagerChoice) : bool :=
  match a, b with
  | Internal, Internal | All, All | External, External => true
  | _, _ => false
  end.

(** [contextSrv]: the permission collaborator. *)
Record ContextSrv := {
  hasPermission : AccessControlAction -> bool
}.

(** The objects returned by [getRulesPermissions] and
    [getInstancesPermissions]. *)
Record CrudPermissions := {
  p_read : AccessControlAction;
  p_create : AccessControlAction;
  p_update : AccessControlAction;
  p_delete : AccessControlAction
}.

Record ProvisioningPermissions := {
  readSecrets : AccessControlAction
}.

(** The object returned by [getNotificationsPermissions]. *)
Record NotificationsPermissions := {
  n_read : AccessControlAction;
  n_create : AccessControlAction;
  n_update : AccessControlAction;
  n_delete : AccessControlAction;
  n_provisioning : ProvisioningPermissions
}.

(** The result bag of [useIsRuleEditable]; all fields but [loading] are
    optional. *)
Record ResultBag := {
  isEditable : option bool;
  isRemovable : option bool;
  isRulerAvailable : option bool;
  loading : bool
}.

(** What [useAlertmanager] hands to the hook. *)
Record AlertmanagerContext := {
  selectedAlertmanager : option string;
  hasConfigurationAPI : bool;
  isGrafanaAlertmanager : bool
}.

Record AlertmanagersChoiceResponse := {
  alertmanagersChoice : AlertmanagerChoice
}.

(** The part of the RTK-query state that [useCanSilence] reads. *)
Record QueryState := {
  currentData : option AlertmanagersChoiceResponse;
  isLoading : bool
}.

(** ** Alert rules *)

Record DataSourceInstanceSettings := {
  ds_name : string
}.

(** [RulesSource]: either the name of the built-in source (a string) or
    the settings object of a data source. *)
Inductive RulesSource :=
  | RulesSourceName (s : string)
  | RulesSourceSettings (ds : DataSourceInstanceSettings).

Record GrafanaAlert := {
  provenance : option string
}.

Inductive RulerRuleDTO :=
  | RulerAlertingRuleDTO
  | RulerRecordingRuleDTO
  | RulerGrafanaRuleDTO (grafana_alert : GrafanaAlert).

Record CombinedRuleNamespace := {
  rulesSource : RulesSource
}.

(** [CombinedRule]; the type of rule groups is declared outside the
    sources and only ever passed to [isFederatedRuleGroup], so it is a
    parameter. *)
Record CombinedRule (Group : Type) := {
  namespace : CombinedRuleNamespace;
  group : Group;
  rulerRule : option RulerRuleDTO
}.
Arguments namespace {Group} _.
Arguments group {Group} _.
Arguments rulerRule {Group} _.

(** The collaborators of the hooks: constants, helpers and hooks that
    [useAbilities.ts] imports from modules outside the sources. The
    non-null assertion in [getNotificationsPermissions(selectedAlertmanager!)]
    is erased at run time, so both permission helpers receive whatever the
    context holds. The alertmanager-choice query is a function of its
    [skip] option. *)
Record Env (Group : Type) := {
  ctx : ContextSrv;
  GRAFANA_RULES_SOURCE_NAME : string;
  getRulesPermissions : string -> CrudPermissions;
  getNotificationsPermissions : option string -> NotificationsPermissions;
  getInstancesPermissions : option string -> CrudPermissions;
  isFederatedRuleGroup : Group -> bool;
  useIsRuleEditable : string -> option RulerRuleDTO -> ResultBag;
  useAlertmanager : AlertmanagerContext;
  useGetAlertmanagerChoiceStatusQuery : bool -> QueryState
}.
Arguments ctx {Group} _.
Arguments GRAFANA_RULES_SOURCE_NAME {Group} _.
Arguments getRulesPermissions {Group} _ _.
Arguments getNotificationsPermissions {Group} _ _.
Arguments getInstancesPermissions {Group} _ _.
Arguments isFederatedRuleGroup {Group} _ _.
Arguments useIsRuleEditable {Group} _ _ _.
Arguments useAlertmanager {Group} _.
Arguments useGetAlertmanagerChoiceStatusQuery {Group} _ _.

(** ** Object literals *)

(** An object literal with computed keys: the entries are written in
    order, a later entry with the same key replaces an earlier one. *)
Definition object_literal {V : Type} (entries : list (string * V)) : gmap string V :=
  foldl (fun m kv => <[kv.1 := kv.2]> m) ∅ entries.

(** The entry that wins for key [k] in a list of entries. *)
Fixpoint last_entry {V : Type} (k : string) (entries : list (string * V)) : option V :=
  match entries with
  | [] => None
  | (k', v) :: rest =>
      match last_entry k rest with
      | Some w => Some w
      | None => if String.eqb k' k then Some v else None
      end
  end.

(** [amConfigStatus?.alertmanagersChoice === choice]: an absent status
    gives [undefined], which equals no choice. *)
Definition strict_eq_choice (v : option AlertmanagerChoice) (c : AlertmanagerChoice) : bool :=
  match v with
  | Some c' => AlertmanagerChoice_eqb c' c
  | None => false
  end.

(** [Boolean(provenance)]: absent and empty strings are falsy. *)
Definition Boolean (v : option string) : bool :=
  match v with
  | Some s => negb (String.eqb s "")
  | None => false
  end.

(** Modelled from the spec: [isGrafanaRulerRule] of [utils/rules] is not
    part of the sources. It is the type guard [rule is RulerGrafanaRuleDTO]
    under which the hook reads [grafana_alert.provenance], the provenance
    flag of the rule descriptor. *)
Definition isGrafanaRulerRule (rule : option RulerRuleDTO) : bool :=
  match rule with
  | Some (RulerGrafanaRuleDTO _) => true
  | _ => false
  end.

(** ** The hooks *)

Section Hooks.
Context {Group : Type}.
Variable E : Env Group.

Definition toAbility (supported : bool) (action : AccessControlAction) : Ability :=
  (supported, hasPermission (ctx E) action).

Definition useAlertingAbilities : gmap string Ability :=
  object_literal [
    (AlertingAction_value CreateAlertRule, toAbility AlwaysSupported AlertingRuleCreate);
    (AlertingAction_value ViewAlertRule, toAbility AlwaysSupported AlertingRuleRead);
    (AlertingAction_value UpdateAlertRule, toAbility AlwaysSupported AlertingRuleUpdate);
    (AlertingAction_value DeleteAlertRule, toAbility AlwaysSupported AlertingRuleDelete);
    (AlertingAction_value ExportGrafanaManagedRules, toAbility AlwaysSupported AlertingRuleRead);
    (AlertingAction_value CreateExternalAlertRule, toAbility AlwaysSupported AlertingRuleExternalWrite);
    (AlertingAction_value ViewExternalAlertRule, toAbility AlwaysSupported AlertingRuleExternalRead);
    (AlertingAction_value UpdateExternalAlertRule, toAbility AlwaysSupported AlertingRuleExternalWrite);
    (AlertingAction_value DeleteExternalAlertRule, toAbility AlwaysSupported AlertingRuleExternalWrite)
  ].

(** [allAbilities[action]]: [None] is JavaScript's [undefined]. *)
Definition useAlertingAbility (action : AlertingAction) : option Ability :=
  useAlertingAbilities !! AlertingAction_value action.

(** [rulesSource === GRAFANA_RULES_SOURCE_NAME]: strict equality, so a
    settings object is never equal to the name. *)
Definition isGrafanaManagedRule (rulesSource : RulesSource) : bool :=
  match rulesSource with
  | RulesSourceName s => String.eqb s (GRAFANA_RULES_SOURCE_NAME E)
  | RulesSourceSettings _ => false
  end.

Definition useCanSilence (rulesSource : RulesSource) : Ability :=
  let isGrafanaManagedRule := isGrafanaManagedRule rulesSource in
  let query := useGetAlertmanagerChoiceStatusQuery E (negb isGrafanaManagedRule) in
  let amConfigStatus := currentData query in
  let isLoading := isLoading query in
  if negb isGrafanaManagedRule || isLoading then (false, false)
  else
    let interactsOnlyWithExternalAMs :=
      strict_eq_choice (alertmanagersChoice <$> amConfigStatus) External in
    let interactsWithAll :=
      strict_eq_choice (alertmanagersChoice <$> amConfigStatus) All in
    let silenceSupported := negb interactsOnlyWithExternalAMs || interactsWithAll in
    toAbility silenceSupported AlertingInstanceCreate.

(** The query state that [useCanSilence] reads for a rules source. *)
Definition alertmanagerChoiceStatus (rulesSource : RulesSource) : QueryState :=
  useGetAlertmanagerChoiceStatusQuery E (negb (isGrafanaManagedRule rulesSource)).

(** The local constants of [useAllAlertRuleAbilities], in the order the
    hook computes them. *)
Definition rulesSourceName (rule : CombinedRule Group) : string :=
  match rulesSource (namespace rule) with
  | RulesSourceName s => s
  | RulesSourceSettings ds => ds_name ds
  end.

Definition isProvisioned (rule : CombinedRule Group) : bool :=
  isGrafanaRulerRule (rulerRule rule) &&
  match rulerRule rule with
  | Some (RulerGrafanaRuleDTO grafana_alert) => Boolean (provenance grafana_alert)
  | _ => false
  end.

Definition isFederated (rule : CombinedRule Group) : bool :=
  isFederatedRuleGroup E (group rule).

Definition immutableRule (rule : CombinedRule Group) : bool :=
  isProvisioned rule || isFederated rule.

Definition ruleEditable (rule : CombinedRule Group) : ResultBag :=
  useIsRuleEditable E (rulesSourceName rule) (rulerRule rule).

(** [isRulerAvailable = false] in the destructuring pattern: the default
    applies when the field is absent. *)
Definition rulerAvailable (rule : CombinedRule Group) : bool :=
  default false (isRulerAvailable (ruleEditable rule)).

Definition MaybeSupported (rule : CombinedRule Group) : bool :=
  if loading (ruleEditable rule) then NotSupported else rulerAvailable rule.

Definition MaybeSupportedUnlessImmutable (rule : CombinedRule Group) : bool :=
  if immutableRule rule then NotSupported else MaybeSupported rule.

(** [None] stands for the [TypeError] of destructuring [undefined] in
    [const [_, exportAllowed] = useAlertingAbility(...)]. *)
Definition useAllAlertRuleAbilities (rule : CombinedRule Group) : option (gmap string Ability) :=
  '(_, exportAllowed) ← useAlertingAbility ExportGrafanaManagedRules;
  let rulesPermissions := getRulesPermissions E (rulesSourceName rule) in
  let canSilence := useCanSilence (rulesSource (namespace rule)) in
  Some (object_literal [
    (AlertRuleAction_value Duplicate, toAbility (MaybeSupported rule) (p_create rulesPermissions));
    (AlertRuleAction_value View, toAbility AlwaysSupported (p_read rulesPermissions));
    (AlertRuleAction_value Update,
      (MaybeSupportedUnlessImmutable rule, default false (isEditable (ruleEditable rule))));
    (AlertRuleAction_value Delete,
      (MaybeSupportedUnlessImmutable rule, default false (isRemovable (ruleEditable rule))));
    (AlertRuleAction_value Explore, toAbility AlwaysSupported DataSourcesExplore);
    (AlertRuleAction_value Silence, canSilence);
    (AlertRuleAction_value ModifyExport, (MaybeSupported rule, exportAllowed))
  ]).

Definition useAlertRuleAbility (rule : CombinedRule Group) (action : AlertRuleAction) : option Ability :=
  abilities ← useAllAlertRuleAbilities rule;
  abilities !! AlertRuleAction_value action.

Definition useAllAlertmanagerAbilities : gmap string Ability :=
  let hasConfigurationAPI := hasConfigurationAPI (useAlertmanager E) in
  let isGrafanaFlavoredAlertmanager := isGrafanaAlertmanager (useAlertmanager E) in
  let notificationsPermissions :=
    getNotificationsPermissions E (selectedAlertmanager (useAlertmanager E)) in
  let instancePermissions :=
    getInstancesPermissions E (selectedAlertmanager (useAlertmanager E)) in
  object_literal [
    (AlertmanagerAction_value ViewExternalConfiguration,
      toAbility AlwaysSupported AlertingNotificationsExternalRead);
    (AlertmanagerAction_value UpdateExternalConfiguration,
      toAbility hasConfigurationAPI AlertingNotificationsExternalWrite);
    (AlertmanagerAction_value CreateContactPoint,
      toAbility hasConfigurationAPI (n_create notificationsPermissions));
    (AlertmanagerAction_value ViewContactPoint,
      toAbility AlwaysSupported (n_read notificationsPermissions));
    (AlertmanagerAction_value UpdateContactPoint,
      toAbility hasConfigurationAPI (n_update notificationsPermissions));
    (AlertmanagerAction_value DeleteContactPoint,
      toAbility hasConfigurationAPI (n_delete notificationsPermissions));
    (AlertmanagerAction_value ExportContactPoint,
      toAbility isGrafanaFlavoredAlertmanager (n_read notificationsPermissions));
    (AlertmanagerAction_value CreateNotificationTemplate,
      toAbility hasConfigurationAPI (n_create notificationsPermissions));
    (AlertmanagerAction_value ViewNotificationTemplate,
      toAbility AlwaysSupported (n_read notificationsPermissions));
    (AlertmanagerAction_value UpdateNotificationTemplate,
      toAbility hasConfigurationAPI (n_update notificationsPermissions));
    (AlertmanagerAction_value DeleteNotificationTemplate,
      toAbility hasConfigurationAPI (n_delete notificationsPermissions));
    (AlertmanagerAction_value CreateNotificationPolicy,
      toAbility hasConfigurationAPI (n_create notificationsPermissions));
    (AlertmanagerAction_value ViewNotificationPolicyTree,
      toAbility AlwaysSupported (n_read notificationsPermissions));
    (AlertmanagerAction_value UpdateNotificationPolicyTree,
      toAbility hasConfigurationAPI (n_update notificationsPermissions));
    (AlertmanagerAction_value DeleteNotificationPolicy,
      toAbility hasConfigurationAPI (n_delete notificationsPermissions));
    (AlertmanagerAction_value ExportNotificationPolicies,
      toAbility isGrafanaFlavoredAlertmanager (n_read notificationsPermissions));
    (AlertmanagerAction_value DecryptSecrets,
      toAbility isGrafanaFlavoredAlertmanager
        (readSecrets (n_provisioning notificationsPermissions)));
    (AlertmanagerAction_value CreateSilence,
      toAbility hasConfigurationAPI (p_create instancePermissions));
    (AlertmanagerAction_value ViewSilence,
      toAbility AlwaysSupported (p_read instancePermissions));
    (AlertmanagerAction_value UpdateSilence,
      toAbility hasConfigurationAPI (p_update instancePermissions));
    (AlertmanagerAction_value CreateMuteTiming,
      toAbility hasConfigurationAPI (n_create notificationsPermissions));
    (AlertmanagerAction_value ViewMuteTiming,
      toAbility AlwaysSupported (n_read notificationsPermissions));
    (AlertmanagerAction_value UpdateMuteTiming,
      toAbility hasConfigurationAPI (n_update notificationsPermissions));
    (AlertmanagerAction_value DeleteMuteTiming,
      toAbility hasConfigurationAPI (n_delete notificationsPermissions))
  ].

Definition useAlertmanagerAbility (action : AlertmanagerAction) : option Ability :=
  useAllAlertmanagerAbilities !! AlertmanagerAction_value action.

End Hooks.

(** ** [ConfigPublicDashboard.tsx] *)

(** Property values of the public-dashboard object. *)
#[warnings="-register-all"]
Inductive JsValue :=
  | JsUndefined
  | JsNull
  | JsBool (b : bool)
  | JsString (s : string)
  | JsArray (items : list JsValue)
  | JsObject (fields : list (string * JsValue)).

Record ConfigPublicDashboardForm := {
  isAnnotationsEnabled : bool;
  isTimeSelectionEnabled : bool;
  isPaused : bool
}.

(** The argument of the [update] mutation; the dashboard is a
    [DashboardModel] or a [DashboardScene], passed along untouched. *)
Record UpdateArgs (Dashboard : Type) := {
  dashboard : Dashboard;
  payload : gmap string JsValue
}.
Arguments dashboard {Dashboard} _.
Arguments payload {Dashboard} _.

(** [...publicDashboard!]: spreading [undefined] copies nothing. *)
Definition spread (o : option (gmap string JsValue)) : gmap string JsValue :=
  default ∅ o.

(** [onPublicDashboardUpdate] calls [update] once; the embedding returns
    the argument of that call. *)
Definition onPublicDashboardUpdate {Dashboard : Type} (dashboard : Dashboard)
    (publicDashboard : option (gmap string JsValue))
    (values : ConfigPublicDashboardForm) : UpdateArgs Dashboard :=
  let isAnnotationsEnabled := isAnnotationsEnabled values in
  let isTimeSelectionEnabled := isTimeSelectionEnabled values in
  let isPaused := isPaused values in
  {| dashboard := dashboard;
     payload :=
       <["isEnabled" := JsBool (negb isPaused)]>
         (<["timeSelectionEnabled" := JsBool isTimeSelectionEnabled]>
           (<["annotationsEnabled" := JsBool isAnnotationsEnabled]>
             (spread publicDashboard))) |}.

(** ** The list versions of the ability hooks *)

Section ListHooks.
Context {Group : Type}.
Variable E : Env Group.

(** [actions.map((action) => abilities[action])]; an entry [None] would
    be [undefined]. *)
Definition useAlertRuleAbilities (rule : CombinedRule Group) (actions : list AlertRuleAction)
    : option (list (option Ability)) :=
  abilities ← useAllAlertRuleAbilities E rule;
  Some ((fun action => abilities !! AlertRuleAction_value action) <$> actions).

Definition useAlertmanagerAbilities (actions : list AlertmanagerAction) : list (option Ability) :=
  (fun action => useAllAlertmanagerAbilities E !! AlertmanagerAction_value action) <$> actions.

End ListHooks.

(** ** The form and the view of [ConfigPublicDashboardBase] *)

(** JavaScript truthiness, for [!value] and [!!value]. *)
Definition truthy (v : JsValue) : bool :=
  match v with
  | JsUndefined | JsNull => false
  | JsBool b => b
  | JsString s => negb (String.eqb s "")
  | JsArray _ | JsObject _ => true
  end.

(** [publicDashboard?.key]: [undefined] when the object or the property
    is absent. *)
Definition optional_get (o : option (gmap string JsValue)) (key : string) : JsValue :=
  match o with
  | Some object => default JsUndefined (object !! key)
  | None => JsUndefined
  end.

(** The [defaultValues] handed to [useForm]. *)
Record DefaultValues := {
  default_isAnnotationsEnabled : JsValue;
  default_isTimeSelectionEnabled : JsValue;
  default_isPaused : bool
}.

Definition defaultValues (publicDashboard : option (gmap string JsValue)) : DefaultValues :=
  {| default_isAnnotationsEnabled := optional_get publicDashboard "annotationsEnabled";
     default_isTimeSelectionEnabled := optional_get publicDashboard "timeSelectionEnabled";
     default_isPaused := negb (truthy (optional_get publicDashboard "isEnabled")) |}.

(** The form values seen as the JavaScript values the form holds. *)
Definition formValues (values : ConfigPublicDashboardForm) : DefaultValues :=
  {| default_isAnnotationsEnabled := JsBool (isAnnotationsEnabled values);
     default_isTimeSelectionEnabled := JsBool (isTimeSelectionEnabled values);
     default_isPaused := isPaused values |}.

(** [keyof ConfigPublicDashboardForm] *)
Inductive FormField :=
  | Field_isAnnotationsEnabled
  | Field_isTimeSelectionEnabled
  | Field_isPaused.

(** [setValue(name, value)] of the form. *)
Definition setValue (values : ConfigPublicDashboardForm) (name : FormField) (value : bool)
    : ConfigPublicDashboardForm :=
  match name with
  | Field_isAnnotationsEnabled =>
      {| isAnnotationsEnabled := value;
         isTimeSelectionEnabled := isTimeSelectionEnabled values;
         isPaused := isPaused values |}
  | Field_isTimeSelectionEnabled =>
      {| isAnnotationsEnabled := isAnnotationsEnabled values;
         isTimeSelectionEnabled := value;
         isPaused := isPaused values |}
  | Field_isPaused =>
      {| isAnnotationsEnabled := isAnnotationsEnabled values;
         isTimeSelectionEnabled := isTimeSelectionEnabled values;
         isPaused := value |}
  end.

(** [onChange]: [setValue(name, value)], then [handleSubmit] hands the
    values the form now holds to [onPublicDashboardUpdate] (the component
    registers its fields without validation rules). [values] is the state
    of the form before the change. *)
Definition onChange {Dashboard : Type} (dashboard : Dashboard)
    (publicDashboard : option (gmap string JsValue))
    (values : ConfigPublicDashboardForm) (name : FormField) (value : bool)
    : UpdateArgs Dashboard :=
  onPublicDashboardUpdate dashboard publicDashboard (setValue values name value).

(** The props of [ConfigPublicDashboardBase] that decide what is shown;
    [timeRange], [onRevoke] and [dashboard] are handed on to children. *)
Record Props := {
  props_unsupportedDatasources : option (list string);
  props_showSaveChangesAlert : option bool;
  props_publicDashboard : option (gmap string JsValue);
  props_hasTemplateVariables : option bool
}.

(** What the component reads from outside its props. The members
    [DashboardsPublicWrite] of [AccessControlAction] and the helper
    [generatePublicDashboardUrl] are declared outside the sources and are
    parameters. *)
Record Runtime := {
  contextSrv : ContextSrv;
  DashboardsPublicWrite : AccessControlAction;
  updateIsLoading : bool;
  featureToggles_publicDashboardsEmailSharing : option bool;
  featureEnabled : string -> bool;
  generatePublicDashboardUrl : JsValue -> string
}.

(** What [ConfigPublicDashboardBase] renders: which alerts are present,
    and the attributes of its controls. *)
Record Rendered := {
  saveDashboardChangesAlert : bool;
  noUpsertPermissionsAlert : bool;
  unsupportedTemplateVariablesAlert : bool;
  unsupportedDataSourcesAlert : option string;
  emailSharingConfiguration : bool;
  urlInputValue : string;
  urlInputDisabled : bool;
  copyButtonDisabled : bool;
  pauseSwitchDisabled : bool;
  configurationDisabled : bool;
  revokeButtonDisabled : bool;
  summaryIsDataLoading : bool;
  summaryTimeSelectionEnabled : JsValue;
  summaryAnnotationsEnabled : JsValue
}.

Definition hasWritePermissions (R : Runtime) : bool :=
  hasPermission (contextSrv R) (DashboardsPublicWrite R).

Definition disableInputs (R : Runtime) : bool :=
  negb (hasWritePermissions R) || updateIsLoading R.

Definition hasEmailSharingEnabled (R : Runtime) : bool :=
  default false (featureToggles_publicDashboardsEmailSharing R)
  && featureEnabled R "publicDashboardsEmailSharing".

(** The render of [ConfigPublicDashboardBase]. [None] is the [TypeError]
    of [publicDashboard!.accessToken] when the prop is absent. *)
Definition ConfigPublicDashboardBase (R : Runtime) (props : Props) : option Rendered :=
  let hasTemplateVariables := default false (props_hasTemplateVariables props) in
  let showSaveChangesAlert := default false (props_showSaveChangesAlert props) in
  let unsupportedDatasources := default [] (props_unsupportedDatasources props) in
  let publicDashboard := props_publicDashboard props in
  match publicDashboard with
  | None => None
  | Some object =>
      Some
        {| saveDashboardChangesAlert := showSaveChangesAlert;
           noUpsertPermissionsAlert := negb (hasWritePermissions R);
           unsupportedTemplateVariablesAlert := hasTemplateVariables;
           unsupportedDataSourcesAlert :=
             if Nat.ltb 0 (length unsupportedDatasources)
             then Some (String.concat ", " unsupportedDatasources)
             else None;
           emailSharingConfiguration := hasEmailSharingEnabled R;
           urlInputValue :=
             generatePublicDashboardUrl R (default JsUndefined (object !! "accessToken"));
           urlInputDisabled := negb (truthy (optional_get publicDashboard "isEnabled"));
           copyButtonDisabled := negb (truthy (optional_get publicDashboard "isEnabled"));
           pauseSwitchDisabled := disableInputs R;
           configurationDisabled := disableInputs R;
           revokeButtonDisabled := disableInputs R;
           summaryIsDataLoading := updateIsLoading R;
           summaryTimeSelectionEnabled := optional_get publicDashboard "timeSelectionEnabled";
           summaryAnnotationsEnabled := optional_get publicDashboard "annotationsEnabled" |}
  end.

(** [ConfigPublicDashboard]: the props it computes for the base
    component. [hasUnsavedChanges] is [dashboard.hasUnsavedChanges()] and
    [hasTemplateVariables] is
    [dashboardHasTemplateVariables(dashboard.getVariables())]. *)
Definition ConfigPublicDashboard (R : Runtime) (hasUnsavedChanges hasTemplateVariables : bool)
    (publicDashboard : gmap string JsValue) (unsupportedDatasources : list string)
    : option Rendered :=
  ConfigPublicDashboardBase R
    {| props_unsupportedDatasources := Some unsupportedDatasources;
       props_showSaveChangesAlert := Some (hasWritePermissions R && hasUnsavedChanges);
       props_publicDashboard := Some publicDashboard;
       props_hasTemplateVariables := Some hasTemplateVariables |}.

(** ** Concrete collaborators, used to run the hooks *)

Definition grafanaRulesPermissions : CrudPermissions :=
  {| p_read := AlertingRuleRead; p_create := AlertingRuleCreate;
     p_update := AlertingRuleUpdate; p_delete := AlertingRuleDelete |}.

Definition externalRulesPermissions : CrudPermissions :=
  {| p_read := AlertingRuleExternalRead; p_create := AlertingRuleExternalWrite;
     p_update := AlertingRuleExternalWrite; p_delete := AlertingRuleExternalWrite |}.

Definition sampleInstancesPermissions : CrudPermissions :=
  {| p_read := OtherAccessControlAction "alert.instances:read";
     p_create := AlertingInstanceCreate;
     p_update := OtherAccessControlAction "alert.instances:write";
     p_delete := OtherAccessControlAction "alert.instances:write" |}.

Definition sampleNotificationsPermissions : NotificationsPermissions :=
  {| n_read := OtherAccessControlAction "alert.notifications:read";
     n_create := OtherAccessControlAction "alert.notifications:write";
     n_update := OtherAccessControlAction "alert.notifications:write";
     n_delete := OtherAccessControlAction "alert.notifications:write";
     n_provisioning :=
       {| readSecrets := OtherAccessControlAction "alert.provisioning.secrets:read" |} |}.

(** An environment over rule groups that carry their federation flag. *)
Definition sampleEnv (allow : AccessControlAction -> bool) (bag : ResultBag)
    (query : QueryState) (am : AlertmanagerContext) : Env bool :=
  {| ctx := {| hasPermission := allow |};
     GRAFANA_RULES_SOURCE_NAME := "grafana";
     getRulesPermissions := fun name =>
       if String.eqb name "grafana" then grafanaRulesPermissions
       else externalRulesPermissions;
     getNotificationsPermissions := fun _ => sampleNotificationsPermissions;
     getInstancesPermissions := fun _ => sampleInstancesPermissions;
     isFederatedRuleGroup := fun g => g;
     useIsRuleEditable := fun _ _ => bag;
     useAlertmanager := am;
     useGetAlertmanagerChoiceStatusQuery := fun skip =>
       if skip then {| currentData := None; isLoading := false |} else query |}.

Definition grafanaAlertmanager : AlertmanagerContext :=
  {| selectedAlertmanager := Some "grafana";
     hasConfigurationAPI := true;
     isGrafanaAlertmanager := true |}.

Definition choiceReady (c : AlertmanagerChoice) : QueryState :=
  {| currentData := Some {| alertmanagersChoice := c |}; isLoading := false |}.

Definition choiceLoading : QueryState :=
  {| currentData := None; isLoading := true |}.

Definition bagLoading : ResultBag :=
  {| isEditable := Some true; isRemovable := Some true;
     isRulerAvailable := Some true; loading := true |}.

Definition bagEmpty : ResultBag :=
  {| isEditable := None; isRemovable := None;
     isRulerAvailable := None; loading := false |}.

Definition bagReady : ResultBag :=
  {| isEditable := Some true; isRemovable := Some true;
     isRulerAvailable := Some true; loading := false |}.

Definition allowAll : AccessControlAction -> bool := fun _ => true.

(** The rule-editability collaborator is still loading. *)
Definition envRuleLoading : Env bool :=
  sampleEnv allowAll bagLoading (choiceReady Internal) grafanaAlertmanager.

(** The rule-editability collaborator answers with every optional field absent. *)
Definition envRuleEmpty : Env bool :=
  sampleEnv allowAll bagEmpty choiceLoading grafanaAlertmanager.

(** Everything has loaded; alerts are routed according to [choice]. *)
Definition envChoice (choice : AlertmanagerChoice) : Env bool :=
  sampleEnv allowAll bagReady (choiceReady choice) grafanaAlertmanager.

(** The alertmanager-choice lookup is still loading. *)
Definition envChoiceLoading : Env bool :=
  sampleEnv allowAll bagReady choiceLoading grafanaAlertmanager.

Definition provisionedGrafanaRule : CombinedRule bool :=
  {| namespace := {| rulesSource := RulesSourceName "grafana" |};
     group := false;
     rulerRule := Some (RulerGrafanaRuleDTO {| provenance := Some "file" |}) |}.

Definition plainGrafanaRule : CombinedRule bool :=
  {| namespace := {| rulesSource := RulesSourceName "grafana" |};
     group := false;
     rulerRule := Some (RulerGrafanaRuleDTO {| provenance := None |}) |}.

Definition externalRule : CombinedRule bool :=
  {| namespace := {| rulesSource := RulesSourceSettings {| ds_name := "mimir" |} |};
     group := false;
     rulerRule := Some RulerAlertingRuleDTO |}.

Definition samplePublicDashboard : gmap string JsValue :=
  object_literal [
    ("uid", JsString "pd-1");
    ("dashboardUid", JsString "dash-1");
    ("accessToken", JsString "c0ffee");
    ("annotationsEnabled", JsBool false);
    ("timeSelectionEnabled", JsBool false);
    ("isEnabled", JsBool true);
    ("share", JsString "public")
  ].

Definition sampleForm : ConfigPublicDashboardForm :=
  {| isAnnotationsEnabled := true; isTimeSelectionEnabled := false; isPaused := true |}.

(** The rule-editability collaborator has finished and says nothing about the ruler. *)
Definition bagNoRuler : ResultBag :=
  {| isEditable := Some true; isRemovable := Some true;
     isRulerAvailable := None; loading := false |}.

Definition envNoRuler : Env bool :=
  sampleEnv allowAll bagNoRuler (choiceReady Internal) grafanaAlertmanager.

(** The alertmanager-choice lookup has finished without data. *)
Definition choiceNoData : QueryState :=
  {| currentData := None; isLoading := false |}.

Definition envChoiceNoData : Env bool :=
  sampleEnv allowAll bagReady choiceNoData grafanaAlertmanager.

(** An alertmanager without configuration API that is not Grafana flavored. *)
Definition readOnlyAlertmanager : AlertmanagerContext :=
  {| selectedAlertmanager := Some "grafana";
     hasConfigurationAPI := false;
     isGrafanaAlertmanager := false |}.

Definition envReadOnlyAlertmanager : Env bool :=
  sampleEnv allowAll bagReady (choiceReady All) readOnlyAlertmanager.

Definition emptyProvenanceRule : CombinedRule bool :=
  {| namespace := {| rulesSource := RulesSourceName "grafana" |};
     group := false;
     rulerRule := Some (RulerGrafanaRuleDTO {| provenance := Some "" |}) |}.

Definition sampleRuntime (canWrite updating : bool) : Runtime :=
  {| contextSrv := {| hasPermission := fun _ => canWrite |};
     DashboardsPublicWrite := OtherAccessControlAction "dashboards.public:write";
     updateIsLoading := updating;
     featureToggles_publicDashboardsEmailSharing := None;
     featureEnabled := fun _ => false;
     generatePublicDashboardUrl := fun token =>
       match token with
       | JsString t => "/public-dashboards/" ++ t
       | _ => "/public-dashboards/undefined"
       end |}.

Definition propsWithout : Props :=
  {| props_unsupportedDatasources := None;
     props_showSaveChangesAlert := None;
     props_publicDashboard := None;
     props_hasTemplateVariables := None |}.

Definition propsWith (publicDashboard : gmap string JsValue) : Props :=
  {| props_unsupportedDatasources := None;
     props_showSaveChangesAlert := None;
     props_publicDashboard := Some publicDashboard;
     props_hasTemplateVariables := None |}.


(** ** Lemmas on object literals *)

Lemma foldl_insert_lookup {V : Type} (entries : list (string * V)) (m : gmap string V) (k : string) :
  foldl (fun m kv => <[kv.1 := kv.2]> m) m entries !! k =
  match last_entry k entries with
  | Some v => Some v
  | None => m !! k
  end.
Proof.
  revert m. induction entries as [|[k' v] rest IH]; intros m; simpl.
  - reflexivity.
  - rewrite IH. destruct (last_entry k rest) as [w|]; [reflexivity|].
    destruct (String.eqb_spec k' k) as [->|Hne].
    + apply lookup_insert_eq.
    + now apply lookup_insert_ne.
Qed.

Lemma lookup_object_literal {V : Type} (entries : list (string * V)) (k : string) :
  object_literal entries !! k = last_entry k entries.
Proof.
  unfold object_literal. rewrite foldl_insert_lookup, lookup_empty.
  now destruct (last_entry k entries).
Qed.

(** ** The three ability tables, entry by entry *)

Section Tables.
Context {Group : Type}.
Variable E : Env Group.

Lemma useAlertingAbility_table (action : AlertingAction) :
  useAlertingAbility E action =
  Some (true, hasPermission (ctx E)
    match action with
    | CreateAlertRule => AlertingRuleCreate
    | ViewAlertRule => AlertingRuleRead
    | UpdateAlertRule => AlertingRuleUpdate
    | DeleteAlertRule => AlertingRuleDelete
    | ExportGrafanaManagedRules => AlertingRuleRead
    | CreateExternalAlertRule => AlertingRuleExternalWrite
    | ViewExternalAlertRule => AlertingRuleExternalRead
    | UpdateExternalAlertRule => AlertingRuleExternalWrite
    | DeleteExternalAlertRule => AlertingRuleExternalWrite
    end).
Proof.
  unfold useAlertingAbility, useAlertingAbilities.
  rewrite lookup_object_literal. destruct action; reflexivity.
Qed.

Lemma useAllAlertRuleAbilities_returns (rule : CombinedRule Group) :
  useAllAlertRuleAbilities E rule = Some (object_literal [
    (AlertRuleAction_value Duplicate,
      toAbility E (MaybeSupported E rule)
        (p_create (getRulesPermissions E (rulesSourceName rule))));
    (AlertRuleAction_value View,
      toAbility E AlwaysSupported
        (p_read (getRulesPermissions E (rulesSourceName rule))));
    (AlertRuleAction_value Update,
      (MaybeSupportedUnlessImmutable E rule,
       default false (isEditable (ruleEditable E rule))));
    (AlertRuleAction_value Delete,
      (MaybeSupportedUnlessImmutable E rule,
       default false (isRemovable (ruleEditable E rule))));
    (AlertRuleAction_value Explore, toAbility E AlwaysSupported DataSourcesExplore);
    (AlertRuleAction_value Silence, useCanSilence E (rulesSource (namespace rule)));
    (AlertRuleAction_value ModifyExport,
      (MaybeSupported E rule, hasPermission (ctx E) AlertingRuleRead))
  ]).
Proof.
  unfold useAllAlertRuleAbilities.
  rewrite (useAlertingAbility_table ExportGrafanaManagedRules).
  reflexivity.
Qed.

Lemma useAlertRuleAbility_table (rule : CombinedRule Group) (action : AlertRuleAction) :
  useAlertRuleAbility E rule action =
  Some
    match action with
    | Duplicate =>
        (MaybeSupported E rule,
         hasPermission (ctx E) (p_create (getRulesPermissions E (rulesSourceName rule))))
    | View =>
        (true,
         hasPermission (ctx E) (p_read (getRulesPermissions E (rulesSourceName rule))))
    | Update =>
        (MaybeSupportedUnlessImmutable E rule,
         default false (isEditable (ruleEditable E rule)))
    | Delete =>
        (MaybeSupportedUnlessImmutable E rule,
         default false (isRemovable (ruleEditable E rule)))
    | Explore => (true, hasPermission (ctx E) DataSourcesExplore)
    | Silence => useCanSilence E (rulesSource (namespace rule))
    | ModifyExport => (MaybeSupported E rule, hasPermission (ctx E) AlertingRuleRead)
    end.
Proof.
  unfold useAlertRuleAbility.
  rewrite useAllAlertRuleAbilities_returns. cbn [mbind option_bind].
  rewrite lookup_object_literal. destruct action; reflexivity.
Qed.

Lemma useAlertmanagerAbility_supported (action : AlertmanagerAction) :
  actionSupported <$> useAlertmanagerAbility E action =
  Some
    match action with
    | ViewExternalConfiguration | ViewContactPoint | ViewNotificationTemplate
    | ViewNotificationPolicyTree | ViewSilence | ViewMuteTiming => true
    | ExportContactPoint | ExportNotificationPolicies | DecryptSecrets =>
        isGrafanaAlertmanager (useAlertmanager E)
    | _ => hasConfigurationAPI (useAlertmanager E)
    end.
Proof.
  unfold useAlertmanagerAbility, useAllAlertmanagerAbilities.
  rewrite lookup_object_literal. destruct action; reflexivity.
Qed.

Lemma useCanSilence_closed (rs : RulesSource) :
  isGrafanaManagedRule E rs = false \/ isLoading (alertmanagerChoiceStatus E rs) = true ->
  useCanSilence E rs = (false, false).
Proof.
  unfold useCanSilence, alertmanagerChoiceStatus.
  intros [-> | ->]; [reflexivity|].
  now rewrite orb_true_r.
Qed.

Lemma useCanSilence_ready (rs : RulesSource) :
  isGrafanaManagedRule E rs = true ->
  isLoading (alertmanagerChoiceStatus E rs) = false ->
  useCanSilence E rs =
  (negb (strict_eq_choice (alertmanagersChoice <$> currentData (alertmanagerChoiceStatus E rs)) External)
   || strict_eq_choice (alertmanagersChoice <$> currentData (alertmanagerChoiceStatus E rs)) All,
   hasPermission (ctx E) AlertingInstanceCreate).
Proof.
  unfold useCanSilence, alertmanagerChoiceStatus.
  intros -> Hl. cbn [negb] in *. rewrite Hl. reflexivity.
Qed.

End Tables.

(** ** Alert-rule abilities *)

(** C1 (as amended): for every rule that is provisioned or federated,
    Update and Delete are unsupported whatever the rule-editability
    collaborator reports (ruler availability, loading), while the
    supported component of ModifyExport does not look at immutability: for
    every rule it is false while the collaborator is loading and
    otherwise equals ruler availability. *)
Theorem immutable_rule_abilities {Group : Type} (E : Env Group) (rule : CombinedRule Group) :
  (isProvisioned rule = true \/ isFederated E rule = true ->
   actionSupported <$> useAlertRuleAbility E rule Update = Some false /\
   actionSupported <$> useAlertRuleAbility E rule Delete = Some false) /\
  actionSupported <$> useAlertRuleAbility E rule ModifyExport =
    Some (if loading (ruleEditable E rule) then false else rulerAvailable E rule).
Proof.
  rewrite !useAlertRuleAbility_table. cbn [fmap option_fmap option_map actionSupported fst].
  split; [|reflexivity].
  intros Himm.
  assert (immutableRule E rule = true) as Himmutable.
  { unfold immutableRule. destruct Himm as [-> | ->]; [reflexivity | apply orb_true_r]. }
  unfold MaybeSupportedUnlessImmutable. rewrite Himmutable.
  split; reflexivity.
Qed.

Lemma immutable_rule_abilities_witness :
  isProvisioned provisionedGrafanaRule = true /\
  actionSupported <$> useAlertRuleAbility (envChoice Internal) provisionedGrafanaRule Update =
    Some false /\
  actionSupported <$> useAlertRuleAbility (envChoice Internal) provisionedGrafanaRule Delete =
    Some false /\
  actionSupported <$> useAlertRuleAbility (envChoice Internal) provisionedGrafanaRule ModifyExport =
    Some true.
Proof.
  split; [reflexivity|].
  destruct (immutable_rule_abilities (envChoice Internal) provisionedGrafanaRule)
    as [Himmutable Hexport].
  destruct Himmutable as [Hupdate Hdelete]; [left; reflexivity|].
  split; [exact Hupdate|]. split; [exact Hdelete|]. exact Hexport.
Defined.

(** C1 (as stated) fails: a provisioned rule whose ruler is available,
    looked at while the rule-editability collaborator is still loading,
    has ModifyExport unsupported; the supported component is not a
    function of ruler availability alone. *)
Lemma modify_export_not_ruler_availability_alone :
  isProvisioned provisionedGrafanaRule = true /\
  rulerAvailable envRuleLoading provisionedGrafanaRule = true /\
  actionSupported <$> useAlertRuleAbility envRuleLoading provisionedGrafanaRule ModifyExport =
    Some false /\
  actionSupported <$> useAlertRuleAbility envRuleLoading provisionedGrafanaRule ModifyExport <>
    Some (rulerAvailable envRuleLoading provisionedGrafanaRule).
Proof.
  split; [reflexivity|]. split; [reflexivity|].
  rewrite useAlertRuleAbility_table. split; [reflexivity|].
  vm_compute. discriminate.
Qed.

(** C2: while the rule-editability collaborator reports loading, the four
    ruler-dependent actions Duplicate, Update, Delete and ModifyExport are
    unsupported, whatever the ruler availability, provenance and
    federation of the rule. *)
Theorem loading_rule_abilities {Group : Type} (E : Env Group) (rule : CombinedRule Group) :
  loading (ruleEditable E rule) = true ->
  actionSupported <$> useAlertRuleAbility E rule Duplicate = Some false /\
  actionSupported <$> useAlertRuleAbility E rule Update = Some false /\
  actionSupported <$> useAlertRuleAbility E rule Delete = Some false /\
  actionSupported <$> useAlertRuleAbility E rule ModifyExport = Some false.
Proof.
  intros Hloading.
  rewrite !useAlertRuleAbility_table. cbn [fmap option_fmap option_map actionSupported fst].
  unfold MaybeSupportedUnlessImmutable, MaybeSupported. rewrite Hloading.
  destruct (immutableRule E rule); repeat split; reflexivity.
Qed.

Lemma loading_rule_abilities_witness :
  loading (ruleEditable envRuleLoading plainGrafanaRule) = true /\
  actionSupported <$> useAlertRuleAbility envRuleLoading plainGrafanaRule Duplicate = Some false /\
  actionSupported <$> useAlertRuleAbility envRuleLoading plainGrafanaRule Update = Some false /\
  actionSupported <$> useAlertRuleAbility envRuleLoading plainGrafanaRule Delete = Some false /\
  actionSupported <$> useAlertRuleAbility envRuleLoading plainGrafanaRule ModifyExport = Some false.
Proof.
  split; [reflexivity|].
  apply (loading_rule_abilities envRuleLoading plainGrafanaRule). reflexivity.
Defined.

(** C7: an absent [isEditable] makes Update not allowed, an absent
    [isRemovable] makes Delete not allowed, and the resolution of the
    table returns a table for every rule and every collaborator state: no
    missing optional field makes it throw. *)
Theorem absent_flags_default_to_false {Group : Type} (E : Env Group) (rule : CombinedRule Group) :
  is_Some (useAllAlertRuleAbilities E rule) /\
  (isEditable (ruleEditable E rule) = None ->
   actionAllowed <$> useAlertRuleAbility E rule Update = Some false) /\
  (isRemovable (ruleEditable E rule) = None ->
   actionAllowed <$> useAlertRuleAbility E rule Delete = Some false).
Proof.
  split; [|split].
  - rewrite useAllAlertRuleAbilities_returns. eexists. reflexivity.
  - intros Habsent. rewrite useAlertRuleAbility_table, Habsent. reflexivity.
  - intros Habsent. rewrite useAlertRuleAbility_table, Habsent. reflexivity.
Qed.

Lemma absent_flags_default_to_false_witness :
  isEditable (ruleEditable envRuleEmpty externalRule) = None /\
  isRemovable (ruleEditable envRuleEmpty externalRule) = None /\
  actionAllowed <$> useAlertRuleAbility envRuleEmpty externalRule Update = Some false /\
  actionAllowed <$> useAlertRuleAbility envRuleEmpty externalRule Delete = Some false.
Proof.
  destruct (absent_flags_default_to_false envRuleEmpty externalRule)
    as (_ & Hupdate & Hdelete).
  split; [reflexivity|]. split; [reflexivity|].
  split; [apply Hupdate | apply Hdelete]; reflexivity.
Defined.

(** ** Silencing *)

(** C3: when the rule's source is not the built-in engine, and also while
    the alertmanager-choice lookup reports loading, the Silence ability is
    exactly (false, false). *)
Theorem silence_fails_closed {Group : Type} (E : Env Group) (rule : CombinedRule Group) :
  isGrafanaManagedRule E (rulesSource (namespace rule)) = false \/
  isLoading (alertmanagerChoiceStatus E (rulesSource (namespace rule))) = true ->
  useCanSilence E (rulesSource (namespace rule)) = (false, false) /\
  useAlertRuleAbility E rule Silence = Some (false, false).
Proof.
  intros Hclosed. rewrite useAlertRuleAbility_table.
  rewrite (useCanSilence_closed E _ Hclosed). split; reflexivity.
Qed.

Lemma silence_fails_closed_witness :
  (isGrafanaManagedRule (envChoice All) (rulesSource (namespace externalRule)) = false /\
   useAlertRuleAbility (envChoice All) externalRule Silence = Some (false, false)) /\
  (isLoading
     (alertmanagerChoiceStatus envChoiceLoading (rulesSource (namespace plainGrafanaRule))) =
     true /\
   useAlertRuleAbility envChoiceLoading plainGrafanaRule Silence = Some (false, false)).
Proof.
  split; (split; [reflexivity|]).
  - apply (silence_fails_closed (envChoice All) externalRule). left. reflexivity.
  - apply (silence_fails_closed envChoiceLoading plainGrafanaRule). right. reflexivity.
Defined.

(** C4: for a rule of the built-in engine whose alertmanager-choice lookup
    has finished, the supported component of Silence follows the routing
    choice: false for external-only, true for all, true for internal-only;
    it is the value of [NOT onlyExternal OR all]. *)
Theorem silence_supported_by_choice {Group : Type} (E : Env Group) (rule : CombinedRule Group)
    (choice : AlertmanagerChoice) :
  isGrafanaManagedRule E (rulesSource (namespace rule)) = true ->
  isLoading (alertmanagerChoiceStatus E (rulesSource (namespace rule))) = false ->
  currentData (alertmanagerChoiceStatus E (rulesSource (namespace rule))) =
    Some {| alertmanagersChoice := choice |} ->
  actionSupported <$> useAlertRuleAbility E rule Silence =
    Some match choice with
         | External => false
         | All => true
         | Internal => true
         end /\
  actionSupported (useCanSilence E (rulesSource (namespace rule))) =
    negb (AlertmanagerChoice_eqb choice External) || AlertmanagerChoice_eqb choice All.
Proof.
  intros Hmanaged Hready Hdata. rewrite useAlertRuleAbility_table.
  rewrite (useCanSilence_ready E _ Hmanaged Hready), Hdata.
  destruct choice; split; reflexivity.
Qed.

Lemma silence_supported_by_choice_witness :
  actionSupported <$> useAlertRuleAbility (envChoice External) plainGrafanaRule Silence =
    Some false /\
  actionSupported <$> useAlertRuleAbility (envChoice All) plainGrafanaRule Silence =
    Some true /\
  actionSupported <$> useAlertRuleAbility (envChoice Internal) plainGrafanaRule Silence =
    Some true.
Proof.
  split; [|split].
  - apply (silence_supported_by_choice (envChoice External) plainGrafanaRule External);
      reflexivity.
  - apply (silence_supported_by_choice (envChoice All) plainGrafanaRule All); reflexivity.
  - apply (silence_supported_by_choice (envChoice Internal) plainGrafanaRule Internal);
      reflexivity.
Defined.

(** C9: for a rule of the built-in engine, with the lookup finished and
    the routing choice external-only, the Silence ability is
    (false, hasPermission(AlertingInstanceCreate)): the allowed component
    is still the permission check, so the pair is (false, false) only when
    the permission is missing. *)
Theorem silence_external_only_keeps_permission {Group : Type} (E : Env Group)
    (rule : CombinedRule Group) :
  isGrafanaManagedRule E (rulesSource (namespace rule)) = true ->
  isLoading (alertmanagerChoiceStatus E (rulesSource (namespace rule))) = false ->
  currentData (alertmanagerChoiceStatus E (rulesSource (namespace rule))) =
    Some {| alertmanagersChoice := External |} ->
  useAlertRuleAbility E rule Silence =
    Some (false, hasPermission (ctx E) AlertingInstanceCreate) /\
  (useAlertRuleAbility E rule Silence = Some (false, false) <->
   hasPermission (ctx E) AlertingInstanceCreate = false).
Proof.
  intros Hmanaged Hready Hdata. rewrite useAlertRuleAbility_table.
  rewrite (useCanSilence_ready E _ Hmanaged Hready), Hdata.
  cbn. split; [reflexivity|].
  split; [intros [= ->] | intros ->]; reflexivity.
Qed.

Lemma silence_external_only_keeps_permission_witness :
  useAlertRuleAbility (envChoice External) plainGrafanaRule Silence = Some (false, true).
Proof.
  apply (silence_external_only_keeps_permission (envChoice External) plainGrafanaRule);
    reflexivity.
Defined.

(** ** Alertmanager abilities *)

(** C5: each of the fifteen create/update/delete-class alertmanager
    actions is supported exactly when the alertmanager has a
    configuration API; [isGrafanaAlertmanager] plays no part. *)
Theorem configuration_actions_need_configuration_api {Group : Type} (E : Env Group) :
  Forall
    (fun action =>
       actionSupported <$> useAlertmanagerAbility E action =
       Some (hasConfigurationAPI (useAlertmanager E)))
    [ UpdateExternalConfiguration;
      CreateContactPoint; UpdateContactPoint; DeleteContactPoint;
      CreateNotificationTemplate; UpdateNotificationTemplate; DeleteNotificationTemplate;
      CreateNotificationPolicy; UpdateNotificationPolicyTree; DeleteNotificationPolicy;
      CreateSilence; UpdateSilence;
      CreateMuteTiming; UpdateMuteTiming; DeleteMuteTiming ].
Proof.
  repeat (apply Forall_cons_2; [now rewrite useAlertmanagerAbility_supported|]).
  apply Forall_nil_2.
Qed.

(** C6: exporting contact points, exporting notification policies and
    decrypting secrets are supported exactly when the alertmanager is
    Grafana flavored, so never when it is not, whatever
    [hasConfigurationAPI] is. *)
Theorem export_actions_need_grafana_alertmanager {Group : Type} (E : Env Group) :
  actionSupported <$> useAlertmanagerAbility E ExportContactPoint =
    Some (isGrafanaAlertmanager (useAlertmanager E)) /\
  actionSupported <$> useAlertmanagerAbility E ExportNotificationPolicies =
    Some (isGrafanaAlertmanager (useAlertmanager E)) /\
  actionSupported <$> useAlertmanagerAbility E DecryptSecrets =
    Some (isGrafanaAlertmanager (useAlertmanager E)).
Proof.
  rewrite !useAlertmanagerAbility_supported. repeat split; reflexivity.
Qed.

(** ** General alerting abilities *)

(** C8: the table of general alerting abilities has an entry for each of
    the nine actions; its supported component is the constant true and
    its allowed component is the permission check of the permission
    identifier written next to the action. *)
Theorem alerting_abilities_always_supported {Group : Type} (E : Env Group) :
  let allowed := hasPermission (ctx E) in
  useAlertingAbilities E !! "create-alert-rule" = Some (true, allowed AlertingRuleCreate) /\
  useAlertingAbilities E !! "view-alert-rule" = Some (true, allowed AlertingRuleRead) /\
  useAlertingAbilities E !! "update-alert-rule" = Some (true, allowed AlertingRuleUpdate) /\
  useAlertingAbilities E !! "delete-alert-rule" = Some (true, allowed AlertingRuleDelete) /\
  useAlertingAbilities E !! "export-grafana-managed-rules" =
    Some (true, allowed AlertingRuleRead) /\
  useAlertingAbilities E !! "create-external-alert-rule" =
    Some (true, allowed AlertingRuleExternalWrite) /\
  useAlertingAbilities E !! "view-external-alert-rule" =
    Some (true, allowed AlertingRuleExternalRead) /\
  useAlertingAbilities E !! "update-external-alert-rule" =
    Some (true, allowed AlertingRuleExternalWrite) /\
  useAlertingAbilities E !! "delete-external-alert-rule" =
    Some (true, allowed AlertingRuleExternalWrite) /\
  forall action : AlertingAction,
    actionSupported <$> useAlertingAbility E action = Some true.
Proof.
  intros allowed.
  repeat (split; [unfold useAlertingAbilities; rewrite lookup_object_literal; reflexivity|]).
  intros action. rewrite useAlertingAbility_table. reflexivity.
Qed.

(** ** The public-dashboard update *)

(** C10: the payload handed to the update mutation is the public
    dashboard with three properties replaced: [annotationsEnabled] and
    [timeSelectionEnabled] come from the form, [isEnabled] is the negation
    of the form's [isPaused]; every other property ([uid], [accessToken],
    ...) is the public dashboard's own, present or absent alike, and the
    dashboard goes along unchanged. *)
Theorem update_payload_frame {Dashboard : Type} (model : Dashboard)
    (publicDashboard : gmap string JsValue) (values : ConfigPublicDashboardForm) :
  let request := onPublicDashboardUpdate model (Some publicDashboard) values in
  payload request !! "annotationsEnabled" = Some (JsBool (isAnnotationsEnabled values)) /\
  payload request !! "timeSelectionEnabled" = Some (JsBool (isTimeSelectionEnabled values)) /\
  payload request !! "isEnabled" = Some (JsBool (negb (isPaused values))) /\
  (forall key : string,
     key <> "annotationsEnabled" -> key <> "timeSelectionEnabled" -> key <> "isEnabled" ->
     payload request !! key = publicDashboard !! key) /\
  dashboard request = model.
Proof.
  cbn. repeat split.
  - rewrite !lookup_insert_ne by discriminate. apply lookup_insert_eq.
  - rewrite lookup_insert_ne by discriminate. apply lookup_insert_eq.
  - apply lookup_insert_eq.
  - intros key Ha Ht He. rewrite !lookup_insert_ne by congruence. reflexivity.
Qed.

Lemma update_payload_frame_witness :
  payload (onPublicDashboardUpdate tt (Some samplePublicDashboard) sampleForm) !! "uid" =
    Some (JsString "pd-1") /\
  payload (onPublicDashboardUpdate tt (Some samplePublicDashboard) sampleForm) !! "accessToken" =
    Some (JsString "c0ffee") /\
  payload (onPublicDashboardUpdate tt (Some samplePublicDashboard) sampleForm) !! "isEnabled" =
    Some (JsBool false).
Proof.
  destruct (update_payload_frame tt samplePublicDashboard sampleForm)
    as (_ & _ & Henabled & Hframe & _).
  split; [|split].
  - rewrite (Hframe "uid") by discriminate.
    unfold samplePublicDashboard. rewrite lookup_object_literal. reflexivity.
  - rewrite (Hframe "accessToken") by discriminate.
    unfold samplePublicDashboard. rewrite lookup_object_literal. reflexivity.
  - exact Henabled.
Defined.

(** ** Keys of the ability tables *)

Lemma last_entry_is_Some {V : Type} (entries : list (string * V)) (k : string) :
  is_Some (last_entry k entries) <-> k ∈ entries.*1.
Proof.
  induction entries as [|[k' v] rest IH]; simpl.
  - split; [intros [? [=]] | intros ?%elem_of_nil; contradiction].
  - rewrite elem_of_cons, <- IH.
    destruct (last_entry k rest) as [w|].
    + split; [right|]; eauto.
    + destruct (String.eqb_spec k' k) as [->|Hne].
      * split; [left|]; eauto.
      * split; [intros [? [=]] | intros [->|[? [=]]]; congruence].
Qed.

Lemma object_literal_keys {V : Type} (entries : list (string * V)) (k : string) :
  is_Some (object_literal entries !! k) <-> k ∈ entries.*1.
Proof. rewrite lookup_object_literal. apply last_entry_is_Some. Qed.

(** Closes [NoDup l] for a list of string literals. *)
Ltac distinct_strings :=
  repeat (apply NoDup_cons_2;
          [ let Hin := fresh "Hin" in
            intros Hin;
            repeat (apply elem_of_cons in Hin as [Hin|Hin]; [discriminate Hin|]);
            apply elem_of_nil in Hin; exact Hin
          | ]);
  apply NoDup_nil_2.

(** X1: the table of general alerting abilities has an entry under the
    string value of each of the nine actions and under no other key, and
    the nine string values are pairwise distinct, so that no entry of the
    object literal replaces another. *)
Theorem alerting_table_keys {Group : Type} (E : Env Group) :
  (forall k : string,
     is_Some (useAlertingAbilities E !! k) <-> exists action, k = AlertingAction_value action) /\
  NoDup (AlertingAction_value <$>
    [CreateAlertRule; ViewAlertRule; UpdateAlertRule; DeleteAlertRule;
     ExportGrafanaManagedRules; CreateExternalAlertRule; ViewExternalAlertRule;
     UpdateExternalAlertRule; DeleteExternalAlertRule]).
Proof.
  split.
  - intros k. unfold useAlertingAbilities. rewrite object_literal_keys.
    change (k ∈ AlertingAction_value <$>
      [CreateAlertRule; ViewAlertRule; UpdateAlertRule; DeleteAlertRule;
       ExportGrafanaManagedRules; CreateExternalAlertRule; ViewExternalAlertRule;
       UpdateExternalAlertRule; DeleteExternalAlertRule]
      <-> exists action, k = AlertingAction_value action).
    rewrite list_elem_of_fmap. split.
    + intros (action & -> & _). now exists action.
    + intros (action & ->). exists action. split; [reflexivity|].
      destruct action; repeat first [apply list_elem_of_here | apply list_elem_of_further].
  - cbn [fmap list_fmap AlertingAction_value]. distinct_strings.
Qed.

(** X2: the table of alertmanager abilities has an entry under the string
    value of each of the twenty-four actions and under no other key, and
    the twenty-four string values are pairwise distinct. *)
Theorem alertmanager_table_keys {Group : Type} (E : Env Group) :
  (forall k : string,
     is_Some (useAllAlertmanagerAbilities E !! k) <->
     exists action, k = AlertmanagerAction_value action) /\
  NoDup (AlertmanagerAction_value <$>
    [ViewExternalConfiguration; UpdateExternalConfiguration;
     CreateContactPoint; ViewContactPoint; UpdateContactPoint; DeleteContactPoint;
     ExportContactPoint;
     CreateNotificationTemplate; ViewNotificationTemplate; UpdateNotificationTemplate;
     DeleteNotificationTemplate; DecryptSecrets;
     CreateNotificationPolicy; ViewNotificationPolicyTree; UpdateNotificationPolicyTree;
     DeleteNotificationPolicy; ExportNotificationPolicies;
     CreateSilence; ViewSilence; UpdateSilence;
     ViewMuteTiming; CreateMuteTiming; UpdateMuteTiming; DeleteMuteTiming]).
Proof.
  split.
  - intros k. unfold useAllAlertmanagerAbilities. cbv zeta. rewrite object_literal_keys.
    change (k ∈ AlertmanagerAction_value <$>
      [ViewExternalConfiguration; UpdateExternalConfiguration;
       CreateContactPoint; ViewContactPoint; UpdateContactPoint; DeleteContactPoint;
       ExportContactPoint;
       CreateNotificationTemplate; ViewNotificationTemplate; UpdateNotificationTemplate;
       DeleteNotificationTemplate;
       CreateNotificationPolicy; ViewNotificationPolicyTree; UpdateNotificationPolicyTree;
       DeleteNotificationPolicy; ExportNotificationPolicies; DecryptSecrets;
       CreateSilence; ViewSilence; UpdateSilence;
       CreateMuteTiming; ViewMuteTiming; UpdateMuteTiming; DeleteMuteTiming]
      <-> exists action, k = AlertmanagerAction_value action).
    rewrite list_elem_of_fmap. split.
    + intros (action & -> & _). now exists action.
    + intros (action & ->). exists action. split; [reflexivity|].
      destruct action; repeat first [apply list_elem_of_here | apply list_elem_of_further].
  - cbn [fmap list_fmap AlertmanagerAction_value]. distinct_strings.
Qed.

(** X3: for every rule the table of alert-rule abilities is returned, has
    an entry under the string value of each of the seven actions and under
    no other key, and the seven string values are pairwise distinct. *)
Theorem alert_rule_table_keys {Group : Type} (E : Env Group) (rule : CombinedRule Group) :
  (exists abilities,
     useAllAlertRuleAbilities E rule = Some abilities /\
     forall k : string,
       is_Some (abilities !! k) <-> exists action, k = AlertRuleAction_value action) /\
  NoDup (AlertRuleAction_value <$>
    [Duplicate; View; Update; Delete; Explore; Silence; ModifyExport]).
Proof.
  split.
  - eexists. split; [apply useAllAlertRuleAbilities_returns|].
    intros k. rewrite object_literal_keys.
    change (k ∈ AlertRuleAction_value <$>
      [Duplicate; View; Update; Delete; Explore; Silence; ModifyExport]
      <-> exists action, k = AlertRuleAction_value action).
    rewrite list_elem_of_fmap. split.
    + intros (action & -> & _). now exists action.
    + intros (action & ->). exists action. split; [reflexivity|].
      destruct action; repeat first [apply list_elem_of_here | apply list_elem_of_further].
  - cbn [fmap list_fmap AlertRuleAction_value]. distinct_strings.
Qed.

(** X4: the three catalogs do not have disjoint string values: the
    general and the alert-rule catalog share exactly the values of
    view, update and delete, so a value of the [Action] union does not
    tell the catalog; the alertmanager catalog shares no value with the
    other two. *)
Theorem action_values_overlap :
  (forall (a : AlertingAction) (b : AlertRuleAction),
     AlertingAction_value a = AlertRuleAction_value b <->
     (a = ViewAlertRule /\ b = View) \/
     (a = UpdateAlertRule /\ b = Update) \/
     (a = DeleteAlertRule /\ b = Delete)) /\
  (forall (a : AlertmanagerAction) (b : AlertingAction),
     AlertmanagerAction_value a <> AlertingAction_value b) /\
  (forall (a : AlertmanagerAction) (b : AlertRuleAction),
     AlertmanagerAction_value a <> AlertRuleAction_value b).
Proof.
  split; [|split].
  - intros a b. split.
    + destruct a, b; intros H; try discriminate H; tauto.
    + intros [[-> ->] | [[-> ->] | [-> ->]]]; reflexivity.
  - intros a b. destruct a, b; discriminate.
  - intros a b. destruct a, b; discriminate.
Qed.

(** ** More on alert-rule abilities *)

(** X5: Update is supported exactly when the rule is neither provisioned
    nor federated, the rule-editability collaborator has finished loading
    and the ruler is available; Delete is supported exactly when Update
    is. *)
Theorem update_supported_iff {Group : Type} (E : Env Group) (rule : CombinedRule Group) :
  (actionSupported <$> useAlertRuleAbility E rule Update = Some true <->
   isProvisioned rule = false /\ isFederated E rule = false /\
   loading (ruleEditable E rule) = false /\
   isRulerAvailable (ruleEditable E rule) = Some true) /\
  actionSupported <$> useAlertRuleAbility E rule Delete =
  actionSupported <$> useAlertRuleAbility E rule Update.
Proof.
  rewrite !useAlertRuleAbility_table.
  cbn [fmap option_fmap option_map actionSupported fst].
  split; [|reflexivity].
  unfold MaybeSupportedUnlessImmutable, MaybeSupported, immutableRule, rulerAvailable,
    NotSupported.
  destruct (isProvisioned rule), (isFederated E rule), (loading (ruleEditable E rule)),
    (isRulerAvailable (ruleEditable E rule)) as [[]|]; cbn; split;
    first [ intros [= ?]; discriminate
          | intros (? & ? & ? & ?); discriminate
          | intros _; repeat split; reflexivity ].
Qed.

(** X6: Duplicate does not look at immutability: it is supported exactly
    when the collaborator has finished loading and the ruler is
    available. So whenever Update is supported, Duplicate and ModifyExport
    are supported too. *)
Theorem duplicate_supported_iff {Group : Type} (E : Env Group) (rule : CombinedRule Group) :
  (actionSupported <$> useAlertRuleAbility E rule Duplicate = Some true <->
   loading (ruleEditable E rule) = false /\
   isRulerAvailable (ruleEditable E rule) = Some true) /\
  (actionSupported <$> useAlertRuleAbility E rule Update = Some true ->
   actionSupported <$> useAlertRuleAbility E rule Duplicate = Some true /\
   actionSupported <$> useAlertRuleAbility E rule ModifyExport = Some true).
Proof.
  rewrite !useAlertRuleAbility_table.
  cbn [fmap option_fmap option_map actionSupported fst].
  unfold MaybeSupportedUnlessImmutable, MaybeSupported, rulerAvailable, NotSupported.
  destruct (immutableRule E rule), (loading (ruleEditable E rule)),
    (isRulerAvailable (ruleEditable E rule)) as [[]|]; cbn;
    (split; [split|]);
    first [ intros [= ?]; discriminate
          | intros (? & ?); discriminate
          | intros _; repeat split; reflexivity
          | intros [= ?] ].
Qed.

Lemma duplicate_supported_iff_witness :
  actionSupported <$> useAlertRuleAbility (envChoice All) plainGrafanaRule Update = Some true /\
  actionSupported <$> useAlertRuleAbility (envChoice All) plainGrafanaRule Duplicate = Some true /\
  actionSupported <$> useAlertRuleAbility (envChoice All) plainGrafanaRule ModifyExport =
    Some true.
Proof.
  assert (actionSupported <$> useAlertRuleAbility (envChoice All) plainGrafanaRule Update =
          Some true) as Hupdate.
  { rewrite useAlertRuleAbility_table. reflexivity. }
  split; [exact Hupdate|].
  exact (proj2 (duplicate_supported_iff (envChoice All) plainGrafanaRule) Hupdate).
Defined.

(** X7: when the rule-editability collaborator leaves [isRulerAvailable]
    out, the ruler counts as unavailable: Duplicate, Update, Delete and
    ModifyExport are unsupported even after loading has finished. *)
Theorem absent_ruler_availability {Group : Type} (E : Env Group) (rule : CombinedRule Group) :
  isRulerAvailable (ruleEditable E rule) = None ->
  actionSupported <$> useAlertRuleAbility E rule Duplicate = Some false /\
  actionSupported <$> useAlertRuleAbility E rule Update = Some false /\
  actionSupported <$> useAlertRuleAbility E rule Delete = Some false /\
  actionSupported <$> useAlertRuleAbility E rule ModifyExport = Some false.
Proof.
  intros Habsent. rewrite !useAlertRuleAbility_table.
  cbn [fmap option_fmap option_map actionSupported fst].
  unfold MaybeSupportedUnlessImmutable, MaybeSupported, rulerAvailable. rewrite Habsent.
  destruct (immutableRule E rule), (loading (ruleEditable E rule)); repeat split; reflexivity.
Qed.

Lemma absent_ruler_availability_witness :
  isRulerAvailable (ruleEditable envNoRuler plainGrafanaRule) = None /\
  loading (ruleEditable envNoRuler plainGrafanaRule) = false /\
  actionSupported <$> useAlertRuleAbility envNoRuler plainGrafanaRule Duplicate = Some false /\
  actionSupported <$> useAlertRuleAbility envNoRuler plainGrafanaRule Update = Some false /\
  actionSupported <$> useAlertRuleAbility envNoRuler plainGrafanaRule Delete = Some false /\
  actionSupported <$> useAlertRuleAbility envNoRuler plainGrafanaRule ModifyExport = Some false.
Proof.
  split; [reflexivity|]. split; [reflexivity|].
  apply (absent_ruler_availability envNoRuler plainGrafanaRule). reflexivity.
Defined.

(** X8: View and Explore are supported for every rule, whatever the
    rule-editability collaborator reports and whether or not the rule is
    immutable. View is allowed by the read permission of the rule's source;
    Explore by the data-source explore permission, the same for every
    source. *)
Theorem view_and_explore_always_supported {Group : Type} (E : Env Group)
    (rule : CombinedRule Group) :
  useAlertRuleAbility E rule View =
    Some (true, hasPermission (ctx E) (p_read (getRulesPermissions E (rulesSourceName rule)))) /\
  useAlertRuleAbility E rule Explore = Some (true, hasPermission (ctx E) DataSourcesExplore).
Proof. rewrite !useAlertRuleAbility_table. split; reflexivity. Qed.

(** X9: a rule is provisioned exactly when its ruler rule is a Grafana
    ruler rule with a non-empty provenance: a rule without ruler rule, a
    data-source ruler rule, and a Grafana ruler rule whose provenance is
    absent or the empty string are not provisioned, and are immutable
    only when federated. *)
Theorem provisioned_iff {Group : Type} (E : Env Group) (rule : CombinedRule Group) :
  (isProvisioned rule = true <->
   exists grafana_alert origin,
     rulerRule rule = Some (RulerGrafanaRuleDTO grafana_alert) /\
     provenance grafana_alert = Some origin /\ origin <> "") /\
  (isProvisioned rule = false -> immutableRule E rule = isFederated E rule).
Proof.
  split.
  - unfold isProvisioned, isGrafanaRulerRule, Boolean.
    destruct (rulerRule rule) as [[| |[[origin|]]]|]; cbn.
    + split; [discriminate | intros (? & ? & [=] & _)].
    + split; [discriminate | intros (? & ? & [=] & _)].
    + destruct (String.eqb_spec origin "") as [->|Hne]; cbn.
      * split; [discriminate | intros (? & ? & [= <-] & [= <-] & Hne); now destruct Hne].
      * split; [|reflexivity]. intros _. eexists _, origin. repeat split; assumption.
    + split; [discriminate | intros (? & ? & [= <-] & [=] & _)].
    + split; [discriminate | intros (? & ? & [=] & _)].
  - intros Hnot. unfold immutableRule. rewrite Hnot. reflexivity.
Qed.

Lemma provisioned_iff_witness :
  isProvisioned emptyProvenanceRule = false /\
  immutableRule (envChoice All) emptyProvenanceRule = false /\
  actionSupported <$> useAlertRuleAbility (envChoice All) emptyProvenanceRule Update = Some true.
Proof.
  split; [reflexivity|]. split.
  - rewrite (proj2 (provisioned_iff (envChoice All) emptyProvenanceRule)); reflexivity.
  - rewrite useAlertRuleAbility_table. reflexivity.
Defined.

(** ** More on silencing *)

(** X10: for a rule of the built-in engine, when the alertmanager-choice
    lookup has finished without data, silencing counts as supported: the
    Silence ability is (true, hasPermission(AlertingInstanceCreate)). *)
Theorem silence_without_choice_data {Group : Type} (E : Env Group) (rule : CombinedRule Group) :
  isGrafanaManagedRule E (rulesSource (namespace rule)) = true ->
  isLoading (alertmanagerChoiceStatus E (rulesSource (namespace rule))) = false ->
  currentData (alertmanagerChoiceStatus E (rulesSource (namespace rule))) = None ->
  useAlertRuleAbility E rule Silence =
    Some (true, hasPermission (ctx E) AlertingInstanceCreate).
Proof.
  intros Hmanaged Hready Hdata. rewrite useAlertRuleAbility_table.
  rewrite (useCanSilence_ready E _ Hmanaged Hready), Hdata. reflexivity.
Qed.

Lemma silence_without_choice_data_witness :
  currentData (alertmanagerChoiceStatus envChoiceNoData (rulesSource (namespace plainGrafanaRule))) =
    None /\
  useAlertRuleAbility envChoiceNoData plainGrafanaRule Silence = Some (true, true).
Proof.
  split; [reflexivity|].
  apply (silence_without_choice_data envChoiceNoData plainGrafanaRule); reflexivity.
Defined.

(** X11: Silence is supported exactly when the rule's source is the
    built-in engine, the alertmanager-choice lookup is not loading and
    the routing choice it holds is not external-only. *)
Theorem silence_supported_iff {Group : Type} (E : Env Group) (rule : CombinedRule Group) :
  actionSupported <$> useAlertRuleAbility E rule Silence = Some true <->
  isGrafanaManagedRule E (rulesSource (namespace rule)) = true /\
  isLoading (alertmanagerChoiceStatus E (rulesSource (namespace rule))) = false /\
  alertmanagersChoice <$> currentData (alertmanagerChoiceStatus E (rulesSource (namespace rule)))
    <> Some External.
Proof.
  rewrite useAlertRuleAbility_table.
  destruct (isGrafanaManagedRule E (rulesSource (namespace rule))) eqn:Hmanaged.
  - destruct (isLoading (alertmanagerChoiceStatus E (rulesSource (namespace rule)))) eqn:Hloading.
    + rewrite (useCanSilence_closed E _ (or_intror Hloading)).
      split; [intros [=] | intros (_ & [=] & _)].
    + rewrite (useCanSilence_ready E _ Hmanaged Hloading).
      destruct (currentData (alertmanagerChoiceStatus E (rulesSource (namespace rule))))
        as [[[]]|]; cbn; split;
        first [ intros _; repeat split; discriminate
              | intros [=]
              | intros (_ & _ & Hne); now destruct Hne
              | reflexivity ].
  - rewrite (useCanSilence_closed E _ (or_introl Hmanaged)).
    split; [intros [=] | intros ([=] & _)].
Qed.

(** X12: the allowed component of ModifyExport is the allowed component
    of the general action ExportGrafanaManagedRules, that is the rule-read
    permission of the built-in engine: it is the same for every rule,
    whatever its source. *)
Theorem modify_export_allowed {Group : Type} (E : Env Group) (rule : CombinedRule Group) :
  actionAllowed <$> useAlertRuleAbility E rule ModifyExport =
    actionAllowed <$> useAlertingAbility E ExportGrafanaManagedRules /\
  actionAllowed <$> useAlertRuleAbility E rule ModifyExport =
    Some (hasPermission (ctx E) AlertingRuleRead).
Proof.
  rewrite useAlertRuleAbility_table, useAlertingAbility_table. split; reflexivity.
Qed.

(** ** The list versions *)

(** X13: [useAlertRuleAbilities] answers a list of actions with the list
    of their abilities, in the same order and of the same length, and no
    entry of it is undefined; each entry is the ability that
    [useAlertRuleAbility] gives for that action. *)
Theorem alert_rule_abilities_of_list {Group : Type} (E : Env Group) (rule : CombinedRule Group)
    (actions : list AlertRuleAction) :
  exists abilities : list Ability,
    useAlertRuleAbilities E rule actions = Some (Some <$> abilities) /\
    length abilities = length actions /\
    Forall2 (fun action ability => useAlertRuleAbility E rule action = Some ability)
      actions abilities.
Proof.
  unfold useAlertRuleAbilities.
  destruct (useAllAlertRuleAbilities E rule) as [table|] eqn:Htable; cycle 1.
  { rewrite useAllAlertRuleAbilities_returns in Htable. discriminate Htable. }
  cbn [mbind option_bind].
  assert (forall action, exists ability,
            table !! AlertRuleAction_value action = Some ability /\
            useAlertRuleAbility E rule action = Some ability) as Hentry.
  { intros action. pose proof (useAlertRuleAbility_table E rule action) as Hability.
    unfold useAlertRuleAbility in Hability. rewrite Htable in Hability.
    cbn [mbind option_bind] in Hability.
    eexists. split; [exact Hability|].
    unfold useAlertRuleAbility. rewrite Htable. exact Hability. }
  induction actions as [|action actions IH].
  - exists []. repeat split. constructor.
  - destruct IH as (abilities & [= Hlist] & Hlength & Hall).
    destruct (Hentry action) as (ability & Hlookup & Hability).
    exists (ability :: abilities). cbn [fmap list_fmap length].
    rewrite Hlookup, Hlength. split; [|split].
    + do 2 f_equal. exact Hlist.
    + reflexivity.
    + constructor; assumption.
Qed.

(** X14: [useAlertmanagerAbilities] answers a list of actions with the
    list of their abilities, in the same order and of the same length,
    and no entry of it is undefined; each entry is the ability that
    [useAlertmanagerAbility] gives for that action. *)
Theorem alertmanager_abilities_of_list {Group : Type} (E : Env Group)
    (actions : list AlertmanagerAction) :
  exists abilities : list Ability,
    useAlertmanagerAbilities E actions = Some <$> abilities /\
    length abilities = length actions /\
    Forall2 (fun action ability => useAlertmanagerAbility E action = Some ability)
      actions abilities.
Proof.
  assert (forall action, exists ability, useAlertmanagerAbility E action = Some ability)
    as Hentry.
  { intros action. pose proof (useAlertmanagerAbility_supported E action) as Hsupported.
    destruct (useAlertmanagerAbility E action) as [ability|]; [eauto | discriminate]. }
  unfold useAlertmanagerAbilities.
  induction actions as [|action actions IH].
  - exists []. repeat split. constructor.
  - destruct IH as (abilities & Hlist & Hlength & Hall).
    destruct (Hentry action) as (ability & Hability).
    exists (ability :: abilities). cbn [fmap list_fmap length].
    split; [|split].
    + f_equal; [exact Hability | exact Hlist].
    + now rewrite Hlength.
    + constructor; assumption.
Qed.

(** ** More on alertmanager abilities *)

Lemma useAlertmanagerAbility_allowed {Group : Type} (E : Env Group) (action : AlertmanagerAction) :
  actionAllowed <$> useAlertmanagerAbility E action =
  Some (hasPermission (ctx E)
    (let notificationsPermissions :=
       getNotificationsPermissions E (selectedAlertmanager (useAlertmanager E)) in
     let instancePermissions :=
       getInstancesPermissions E (selectedAlertmanager (useAlertmanager E)) in
     match action with
     | ViewExternalConfiguration => AlertingNotificationsExternalRead
     | UpdateExternalConfiguration => AlertingNotificationsExternalWrite
     | ViewContactPoint | ExportContactPoint | ViewNotificationTemplate
     | ViewNotificationPolicyTree | ExportNotificationPolicies | ViewMuteTiming =>
         n_read notificationsPermissions
     | CreateContactPoint | CreateNotificationTemplate | CreateNotificationPolicy
     | CreateMuteTiming => n_create notificationsPermissions
     | UpdateContactPoint | UpdateNotificationTemplate | UpdateNotificationPolicyTree
     | UpdateMuteTiming => n_update notificationsPermissions
     | DeleteContactPoint | DeleteNotificationTemplate | DeleteNotificationPolicy
     | DeleteMuteTiming => n_delete notificationsPermissions
     | DecryptSecrets => readSecrets (n_provisioning notificationsPermissions)
     | CreateSilence => p_create instancePermissions
     | ViewSilence => p_read instancePermissions
     | UpdateSilence => p_update instancePermissions
     end)).
Proof.
  unfold useAlertmanagerAbility, useAllAlertmanagerAbilities.
  rewrite lookup_object_literal. destruct action; reflexivity.
Qed.

(** X15: the six view-class alertmanager actions are supported whatever
    the alertmanager: neither [hasConfigurationAPI] nor
    [isGrafanaAlertmanager] hides them. *)
Theorem view_actions_always_supported {Group : Type} (E : Env Group) :
  Forall
    (fun action => actionSupported <$> useAlertmanagerAbility E action = Some true)
    [ ViewExternalConfiguration; ViewContactPoint; ViewNotificationTemplate;
      ViewNotificationPolicyTree; ViewSilence; ViewMuteTiming ].
Proof.
  repeat (apply Forall_cons_2; [now rewrite useAlertmanagerAbility_supported|]).
  apply Forall_nil_2.
Qed.

(** X16: the allowed component of an alertmanager action is a matter of
    permissions only: two alertmanager contexts with the same permission
    collaborator and the same permission sets give every action the same
    allowed component, whatever their [hasConfigurationAPI] and
    [isGrafanaAlertmanager] flags. *)
Theorem alertmanager_allowed_ignores_flags {Group : Type} (E1 E2 : Env Group)
    (action : AlertmanagerAction) :
  ctx E1 = ctx E2 ->
  getNotificationsPermissions E1 (selectedAlertmanager (useAlertmanager E1)) =
    getNotificationsPermissions E2 (selectedAlertmanager (useAlertmanager E2)) ->
  getInstancesPermissions E1 (selectedAlertmanager (useAlertmanager E1)) =
    getInstancesPermissions E2 (selectedAlertmanager (useAlertmanager E2)) ->
  actionAllowed <$> useAlertmanagerAbility E1 action =
  actionAllowed <$> useAlertmanagerAbility E2 action.
Proof.
  intros Hctx Hnotifications Hinstances.
  rewrite !useAlertmanagerAbility_allowed. cbv zeta.
  rewrite Hctx, Hnotifications, Hinstances. reflexivity.
Qed.

Lemma alertmanager_allowed_ignores_flags_witness :
  hasConfigurationAPI (useAlertmanager (envChoice All)) = true /\
  hasConfigurationAPI (useAlertmanager envReadOnlyAlertmanager) = false /\
  actionAllowed <$> useAlertmanagerAbility (envChoice All) CreateContactPoint =
  actionAllowed <$> useAlertmanagerAbility envReadOnlyAlertmanager CreateContactPoint.
Proof.
  split; [reflexivity|]. split; [reflexivity|].
  apply (alertmanager_allowed_ignores_flags (envChoice All) envReadOnlyAlertmanager
           CreateContactPoint); reflexivity.
Defined.

(** X17: permissions are per kind of operation, not per resource.
    Exporting contact points or notification policies is allowed exactly
    when viewing contact points is; creating a contact point, a template,
    a policy or a mute timing are allowed together, and so are the
    updates and the deletions. Silences are checked against the instance
    permissions of the selected alertmanager instead. *)
Theorem alertmanager_allowed_by_kind {Group : Type} (E : Env Group) :
  let allowed action := actionAllowed <$> useAlertmanagerAbility E action in
  let instancePermissions :=
    getInstancesPermissions E (selectedAlertmanager (useAlertmanager E)) in
  Forall (fun action => allowed action = allowed ViewContactPoint)
    [ExportContactPoint; ExportNotificationPolicies; ViewNotificationTemplate;
     ViewNotificationPolicyTree; ViewMuteTiming] /\
  Forall (fun action => allowed action = allowed CreateContactPoint)
    [CreateNotificationTemplate; CreateNotificationPolicy; CreateMuteTiming] /\
  Forall (fun action => allowed action = allowed UpdateContactPoint)
    [UpdateNotificationTemplate; UpdateNotificationPolicyTree; UpdateMuteTiming] /\
  Forall (fun action => allowed action = allowed DeleteContactPoint)
    [DeleteNotificationTemplate; DeleteNotificationPolicy; DeleteMuteTiming] /\
  allowed CreateSilence = Some (hasPermission (ctx E) (p_create instancePermissions)) /\
  allowed ViewSilence = Some (hasPermission (ctx E) (p_read instancePermissions)) /\
  allowed UpdateSilence = Some (hasPermission (ctx E) (p_update instancePermissions)).
Proof.
  intros allowed instancePermissions. unfold allowed, instancePermissions.
  repeat split;
    repeat (apply Forall_cons_2; [now rewrite !useAlertmanagerAbility_allowed|]);
    try apply Forall_nil_2;
    now rewrite useAlertmanagerAbility_allowed.
Qed.

(** ** More on the public-dashboard form *)

Lemma payload_lookup {Dashboard : Type} (model : Dashboard)
    (publicDashboard : option (gmap string JsValue)) (values : ConfigPublicDashboardForm)
    (key : string) :
  payload (onPublicDashboardUpdate model publicDashboard values) !! key =
  if decide ("isEnabled" = key) then Some (JsBool (negb (isPaused values)))
  else if decide ("timeSelectionEnabled" = key)
       then Some (JsBool (isTimeSelectionEnabled values))
  else if decide ("annotationsEnabled" = key)
       then Some (JsBool (isAnnotationsEnabled values))
  else spread publicDashboard !! key.
Proof. cbn. rewrite !lookup_insert. reflexivity. Qed.

(** X18: the update and the form's default values are a round trip: a
    form initialised from the payload that was sent holds the values that
    were submitted, whether or not there was a public dashboard to start
    from. *)
Theorem default_values_of_payload {Dashboard : Type} (model : Dashboard)
    (publicDashboard : option (gmap string JsValue)) (values : ConfigPublicDashboardForm) :
  defaultValues (Some (payload (onPublicDashboardUpdate model publicDashboard values))) =
  formValues values.
Proof.
  unfold defaultValues, formValues, optional_get.
  rewrite !payload_lookup. cbn. destruct values as [? ? []]; reflexivity.
Qed.



(** X20: the last update wins: updating the payload of an earlier update
    gives the payload that the later form values give on the original
    public dashboard; nothing of the earlier form values is left. *)
Theorem update_twice {Dashboard : Type} (model : Dashboard)
    (publicDashboard : option (gmap string JsValue))
    (earlier later : ConfigPublicDashboardForm) :
  payload
    (onPublicDashboardUpdate model
       (Some (payload (onPublicDashboardUpdate model publicDashboard earlier))) later) =
  payload (onPublicDashboardUpdate model publicDashboard later).
Proof.
  apply map_eq. intros key. rewrite !payload_lookup.
  change (spread (Some ?object)) with object.
  rewrite payload_lookup. repeat case_decide; reflexivity.
Qed.

(** X21: the update adds the three properties and drops none: the keys
    of the payload are those of the public dashboard together with
    [annotationsEnabled], [timeSelectionEnabled] and [isEnabled]. Without
    a public dashboard the payload has these three keys only, so no
    [uid]. *)
Theorem payload_keys {Dashboard : Type} (model : Dashboard)
    (values : ConfigPublicDashboardForm) :
  (forall publicDashboard : gmap string JsValue,
     dom (payload (onPublicDashboardUpdate model (Some publicDashboard) values)) =
     {["annotationsEnabled"; "timeSelectionEnabled"; "isEnabled"]} ∪ dom publicDashboard) /\
  dom (payload (onPublicDashboardUpdate model None values)) =
    ({["annotationsEnabled"; "timeSelectionEnabled"; "isEnabled"]} : gset string) /\
  payload (onPublicDashboardUpdate model None values) !! "uid" = None.
Proof.
  split; [|split].
  - intros publicDashboard. cbn. rewrite !dom_insert_L.
    apply set_eq. intros key. rewrite !elem_of_union, !elem_of_singleton. tauto.
  - cbn. rewrite !dom_insert_L, dom_empty_L.
    apply set_eq. intros key. rewrite !elem_of_union, !elem_of_singleton, elem_of_empty. tauto.
  - rewrite payload_lookup. reflexivity.
Qed.

(** X22: a change of one field of the form sends that field's new value
    and the values the form held for the other two: pausing does not
    touch the annotation and time-selection settings, and changing a
    setting does not touch the pause state. *)
Theorem onChange_sends_one_change {Dashboard : Type} (model : Dashboard)
    (publicDashboard : option (gmap string JsValue))
    (values : ConfigPublicDashboardForm) (name : FormField) (value : bool) :
  let sent := payload (onChange model publicDashboard values name value) in
  sent !! "annotationsEnabled" =
    Some (JsBool match name with
                 | Field_isAnnotationsEnabled => value
                 | _ => isAnnotationsEnabled values
                 end) /\
  sent !! "timeSelectionEnabled" =
    Some (JsBool match name with
                 | Field_isTimeSelectionEnabled => value
                 | _ => isTimeSelectionEnabled values
                 end) /\
  sent !! "isEnabled" =
    Some (JsBool (negb match name with
                       | Field_isPaused => value
                       | _ => isPaused values
                       end)).
Proof.
  cbv zeta. unfold onChange. rewrite !payload_lookup.
  destruct name; repeat split; reflexivity.
Qed.

(** ** What [ConfigPublicDashboardBase] renders *)


(** X24: the pause switch, the settings and the revoke button are
    disabled together, and they are enabled exactly when the user has the
    public-dashboard write permission and no update is in flight.
    Whenever the missing-permission alert is shown they are disabled. *)
Theorem inputs_disabled_without_permission (R : Runtime) (props : Props) (view : Rendered) :
  ConfigPublicDashboardBase R props = Some view ->
  configurationDisabled view = pauseSwitchDisabled view /\
  revokeButtonDisabled view = pauseSwitchDisabled view /\
  (pauseSwitchDisabled view = false <->
   hasPermission (contextSrv R) (DashboardsPublicWrite R) = true /\
   updateIsLoading R = false) /\
  (noUpsertPermissionsAlert view = true -> pauseSwitchDisabled view = true).
Proof.
  unfold ConfigPublicDashboardBase.
  destruct (props_publicDashboard props); [|discriminate].
  intros [= <-]. cbn. unfold disableInputs, hasWritePermissions.
  destruct (hasPermission (contextSrv R) (DashboardsPublicWrite R)), (updateIsLoading R); cbn;
    repeat split; intros; try tauto; try discriminate; intuition discriminate.
Qed.

Lemma inputs_disabled_without_permission_witness :
  exists view,
    ConfigPublicDashboardBase (sampleRuntime false false) (propsWith samplePublicDashboard) =
      Some view /\
    noUpsertPermissionsAlert view = true /\
    pauseSwitchDisabled view = true /\
    revokeButtonDisabled view = true.
Proof.
  eexists. split; [reflexivity|]. split; [reflexivity|].
  pose proof (inputs_disabled_without_permission (sampleRuntime false false)
                (propsWith samplePublicDashboard) _ eq_refl)
    as (_ & Hrevoke & _ & Halert).
  split; [exact (Halert eq_refl)|].
  rewrite Hrevoke. exact (Halert eq_refl).
Defined.

(** X25: the page never shows the save-changes alert together with the
    missing-permission alert: [ConfigPublicDashboard] asks for the first
    only when the user has the write permission (and the dashboard has
    unsaved changes), and the base component shows the second only when
    the user lacks it. *)
Theorem alerts_exclude_each_other (R : Runtime) (hasUnsavedChanges hasTemplateVariables : bool)
    (publicDashboard : gmap string JsValue) (unsupportedDatasources : list string) :
  exists view,
    ConfigPublicDashboard R hasUnsavedChanges hasTemplateVariables publicDashboard
      unsupportedDatasources = Some view /\
    saveDashboardChangesAlert view =
      hasPermission (contextSrv R) (DashboardsPublicWrite R) && hasUnsavedChanges /\
    noUpsertPermissionsAlert view =
      negb (hasPermission (contextSrv R) (DashboardsPublicWrite R)) /\
    saveDashboardChangesAlert view && noUpsertPermissionsAlert view = false.
Proof.
  eexists. split; [reflexivity|]. cbn. unfold hasWritePermissions.
  destruct (hasPermission (contextSrv R) (DashboardsPublicWrite R)), hasUnsavedChanges;
    repeat split; reflexivity.
Qed.

(** X26: once an update has been sent and the component renders the
    payload as its public dashboard, the URL field and the copy button
    are disabled exactly when the form was paused, and the settings
    summary shows the two settings of the form. *)
Theorem view_after_update {Dashboard : Type} (R : Runtime) (model : Dashboard)
    (publicDashboard : option (gmap string JsValue)) (values : ConfigPublicDashboardForm)
    (unsupported : option (list string)) (showSave hasVariables : option bool) :
  exists view,
    ConfigPublicDashboardBase R
      {| props_unsupportedDatasources := unsupported;
         props_showSaveChangesAlert := showSave;
         props_publicDashboard :=
           Some (payload (onPublicDashboardUpdate model publicDashboard values));
         props_hasTemplateVariables := hasVariables |} = Some view /\
    urlInputDisabled view = isPaused values /\
    copyButtonDisabled view = isPaused values /\
    summaryTimeSelectionEnabled view = JsBool (isTimeSelectionEnabled values) /\
    summaryAnnotationsEnabled view = JsBool (isAnnotationsEnabled values).
Proof.
  eexists. split; [reflexivity|].
  cbn [urlInputDisabled copyButtonDisabled summaryTimeSelectionEnabled
       summaryAnnotationsEnabled props_publicDashboard optional_get].
  rewrite !payload_lookup. cbn.
  destruct (isPaused values); repeat split; reflexivity.
Qed.
